(** * Pandas sparklines: a shallow embedding of [sparklines.py]

    The module renders a numeric sequence as a small matplotlib figure,
    wraps the PNG in an [img] tag, maps that over a dataframe column
    ([create]) and prints or saves the table ([show], [to_html]).

    Modelling choices, all visible below:
    - Python values are the inductive [pyval]; finite floats are carried by
      their exact rational value, only compared and stored, never computed.
    - Exceptions are the type [exn]; fallible code returns [result].
    - Dataframes are mutable objects: they live in a heap of the [World],
      next to the pandas option registry, the files and the notebook output.
    - matplotlib and pandas are not part of the module: the figure is
      recorded as the list of plotting calls the module makes, and the two
      library services that turn a figure into PNG text and a dataframe into
      an HTML table are the methods of the class [Backend]. *)

From Stdlib Require Import ZArith QArith.
From stdpp Require Import base option list strings gmap.

Local Open Scope Z_scope.
Local Set Warnings "-register-all".

(** ** Python values *)

Inductive pyval :=
| VNone
| VBool (b : bool)
| VInt (z : Z)
| VFloat (q : Q)
| VStr (s : string)
| VTuple (l : list pyval)
| VList (l : list pyval).

Inductive exn :=
| TypeError (msg : string)
| ValueError (msg : string)
| IndexError (msg : string)
| KeyError (key : string)
| OSError (path : string)
| LibraryError (msg : string).

Inductive result (A : Type) :=
| Ok (a : A)
| Raise (e : exn).
Arguments Ok {A} a.
Arguments Raise {A} e.

Global Instance result_ret : MRet result := fun A a => Ok a.
Global Instance result_bind : MBind result := fun A B k r =>
  match r with
  | Ok a => k a
  | Raise e => Raise e
  end.

Global Instance result_fmap : FMap result := fun A B f r =>
  match r with
  | Ok a => Ok (f a)
  | Raise e => Raise e
  end.

Fixpoint rmap {A B} (f : A -> result B) (l : list A) : result (list B) :=
  match l with
  | [] => Ok []
  | x :: t => y ← f x; ys ← rmap f t; Ok (y :: ys)
  end.

(** ** The builtins the module calls *)

(** Numbers compare by value across bool, int and float. *)
Definition num_of (v : pyval) : option Q :=
  match v with
  | VBool b => Some (inject_Z (if b then 1 else 0))
  | VInt z => Some (inject_Z z)
  | VFloat q => Some q
  | _ => None
  end.

(** [a == b] *)
Fixpoint py_eq (a b : pyval) : bool :=
  let fix all2 (l m : list pyval) : bool :=
    match l, m with
    | [], [] => true
    | x :: l', y :: m' => py_eq x y && all2 l' m'
    | _, _ => false
    end in
  match a, b with
  | VNone, VNone => true
  | VStr s, VStr t => String.eqb s t
  | VTuple l, VTuple m => all2 l m
  | VList l, VList m => all2 l m
  | _, _ =>
      match num_of a, num_of b with
      | Some p, Some q => Qeq_bool p q
      | _, _ => false
      end
  end.

Definition not_ordered : exn :=
  TypeError "'<' not supported between instances".

(** [a < b]: numbers by value, strings and sequences lexicographically. *)
Fixpoint py_lt (a b : pyval) : result bool :=
  let fix lex (l m : list pyval) : result bool :=
    match l, m with
    | [], [] => Ok false
    | [], _ :: _ => Ok true
    | _ :: _, [] => Ok false
    | x :: l', y :: m' => if py_eq x y then lex l' m' else py_lt x y
    end in
  match a, b with
  | VStr s, VStr t => Ok (String.ltb s t)
  | VTuple l, VTuple m => lex l m
  | VList l, VList m => lex l m
  | _, _ =>
      match num_of a, num_of b with
      | Some p, Some q => Ok (negb (Qle_bool q p))
      | _, _ => Raise not_ordered
      end
  end.

(** [list(data)] *)
Definition py_list (data : pyval) : result (list pyval) :=
  match data with
  | VList l => Ok l
  | VTuple l => Ok l
  | VStr s => Ok ((fun c => VStr (String c EmptyString)) <$> String.list_ascii_of_string s)
  | _ => Raise (TypeError "object is not iterable")
  end.

(** [min(data)]: the first of the smallest items. *)
Fixpoint min_from (best : pyval) (rest : list pyval) : result pyval :=
  match rest with
  | [] => Ok best
  | item :: rest' =>
      lt ← py_lt item best;
      min_from (if lt : bool then item else best) rest'
  end.

Definition py_min (data : list pyval) : result pyval :=
  match data with
  | [] => Raise (ValueError "min() arg is an empty sequence")
  | x :: rest => min_from x rest
  end.

(** [data[i]] on a list, negative indices counting from the end. *)
Definition py_getitem (data : list pyval) (i : Z) : result pyval :=
  let n := Z.of_nat (length data) in
  let j := if i <? 0 then i + n else i in
  if (j <? 0) || (n <=? j) then Raise (IndexError "list index out of range")
  else match data !! Z.to_nat j with
       | Some v => Ok v
       | None => Raise (IndexError "list index out of range")
       end.

(** [range(n)] *)
Definition py_range (n : Z) : list Z := Z.of_nat <$> seq 0 (Z.to_nat n).

(** [n * [v]] *)
Definition py_repeat (n : Z) (v : pyval) : list pyval := replicate (Z.to_nat n) v.

(** [if v:] *)
Definition py_truthy (v : pyval) : bool :=
  match v with
  | VNone => false
  | VBool b => b
  | VInt z => negb (z =? 0)
  | VFloat q => negb (Qeq_bool q 0)
  | VStr s => negb (String.eqb s "")
  | VTuple l | VList l => match l with [] => false | _ => true end
  end.

(** A keyword dictionary, [**kwargs]. *)
Abbreviation kwdict := (gmap string pyval).

(** [kwargs.get(key, dflt)], which is also how a defaulted parameter is
    bound from the keywords of a call. *)
Definition kw_get (kw : kwdict) (key : string) (dflt : pyval) : pyval :=
  default dflt (kw !! key).

(** The keywords left for [**kwargs] once the named parameters are bound. *)
Definition kw_rest (named : list string) (kw : kwdict) : kwdict :=
  foldr delete kw named.

(** ** The renderer *)

(** What the module asks of matplotlib, in call order.  The figure is the
    list of these calls; rasterising it is the backend's work. *)
Inductive plot_call :=
| NewFigure (figsize : pyval)
| AddSubplot (pos : Z)
| PlotLine (ys : list pyval) (kw : kwdict)
| AxisOff
| FillBetween (xs : list Z) (y1 y2 : list pyval) (color alpha : pyval)
| PlotMarker (x : Z) (y : pyval)
    (color marker markeredgecolor markersize alpha : pyval) (clip_on : bool)
| SubplotsAdjust (side : string) (v : pyval).

Abbreviation figure := (list plot_call).

(** A dataframe: the row labels in order, and the columns in order, each
    with one cell per row.  Column labels are [str]. *)
Record DataFrame := {
  index : list pyval;
  columns : list (string * list pyval)
}.

Record Series := { s_index : list pyval; s_values : list pyval }.

(** A registered pandas option: its default and its current value. *)
Record setting := { defval : pyval; value : pyval }.

(** The two options the module touches, [display.max_colwidth] and
    [display.max_seq_items]. *)
Record Display := {
  max_colwidth : setting;
  max_seq_items : setting
}.

(** The two library services the module relies on:
    [savefig_b64 fig] is [base64.b64encode(bio.getvalue()).decode('utf-8')]
    after [plt.savefig(bio)], and fails when matplotlib rejects a call;
    [frame_to_html] is [DataFrame.to_html(index=, escape=)], which reads the
    display limits in force when it runs. *)
Class Backend := {
  savefig_b64 : figure -> result string;
  frame_to_html : Display -> DataFrame -> bool -> bool -> result string
}.

(** The parameters of [sparkline] after binding. *)
Record spark_args := {
  point : pyval; point_color : pyval; point_marker : pyval;
  point_fill : pyval; point_size : pyval; point_alpha : pyval;
  fill : pyval; fill_color : pyval; fill_alpha : pyval;
  figsize : pyval;
  kwargs : kwdict
}.

Definition spark_defaults : spark_args := {|
  point := VBool true; point_color := VStr "red"; point_marker := VStr ".";
  point_fill := VStr "red"; point_size := VInt 6; point_alpha := VFloat 1;
  fill := VBool true; fill_color := VStr "blue"; fill_alpha := VFloat (1 # 10);
  figsize := VTuple [VInt 4; VFloat (1 # 4)];
  kwargs := ∅
|}.

Definition dquote : string := String (Ascii.ascii_of_nat 34) EmptyString.

Definition img_tag (b64 : string) : string :=
  "<img src=" +:+ dquote +:+ "data:image/png;base64," +:+ b64 +:+ dquote +:+ "/>".

(** Lines 95-122 of [sparkline]: everything up to [savefig]. *)
Definition sparkline_figure (a : spark_args) (data : pyval) : result figure :=
  data ← py_list data;
  let fig := [NewFigure (figsize a); AddSubplot 111] in
  let plot_len := Z.of_nat (length data) in
  plot_min ← py_min data;
  let point_x := plot_len - 1 in
  let fig := fig ++ [PlotLine data (kwargs a)] in
  let fig := fig ++ [AxisOff] in
  let fig := fig ++ [FillBetween (py_range plot_len) data (py_repeat plot_len plot_min)
                                 (fill_color a) (fill_alpha a)] in
  last ← py_getitem data point_x;
  let fig := fig ++ [PlotMarker point_x last (point_fill a) (point_marker a)
                                (point_color a) (point_size a) (point_alpha a) false] in
  let fig := fig ++ [SubplotsAdjust "left" (VInt 0)] in
  let fig := fig ++ [SubplotsAdjust "right" (VFloat (99 # 100))] in
  let fig := fig ++ [SubplotsAdjust "bottom" (VFloat (1 # 10))] in
  let fig := fig ++ [SubplotsAdjust "top" (VFloat (9 # 10))] in
  Ok fig.

Definition sparkline `{B : Backend} (a : spark_args) (data : pyval) : result string :=
  fig ← sparkline_figure a data;
  b64 ← savefig_b64 fig;
  Ok (img_tag b64).

(** The parameter names of [sparkline] that a keyword can bind. *)
Definition sparkline_params : list string :=
  ["point"; "point_color"; "point_marker"; "point_fill"; "point_size";
   "point_alpha"; "fill"; "fill_color"; "fill_alpha"; "figsize"].

(** The call [sparkline(x, figsize=figsize, **kwargs)] of [create]: a keyword
    given twice, or one that names the positional [data], is a [TypeError];
    the other keywords bind the parameters of the same name and the rest is
    [sparkline]'s own [**kwargs]. *)
Definition call_sparkline `{B : Backend} (x figsize0 : pyval) (kw : kwdict) : result string :=
  if decide (is_Some (kw !! "figsize")) then
    Raise (TypeError "sparkline() got multiple values for keyword argument 'figsize'")
  else if decide (is_Some (kw !! "data")) then
    Raise (TypeError "sparkline() got multiple values for argument 'data'")
  else
    let d := spark_defaults in
    sparkline {|
      point := kw_get kw "point" (point d);
      point_color := kw_get kw "point_color" (point_color d);
      point_marker := kw_get kw "point_marker" (point_marker d);
      point_fill := kw_get kw "point_fill" (point_fill d);
      point_size := kw_get kw "point_size" (point_size d);
      point_alpha := kw_get kw "point_alpha" (point_alpha d);
      fill := kw_get kw "fill" (fill d);
      fill_color := kw_get kw "fill_color" (fill_color d);
      fill_alpha := kw_get kw "fill_alpha" (fill_alpha d);
      figsize := figsize0;
      kwargs := kw_rest sparkline_params kw
    |} x.

(** ** Dataframes *)

Definition nrows (df : DataFrame) : nat := length (index df).

Definition column_names (df : DataFrame) : list string := fst <$> columns df.

Fixpoint assoc {A} (k : string) (l : list (string * A)) : option A :=
  match l with
  | [] => None
  | (k', v) :: t => if String.eqb k k' then Some v else assoc k t
  end.

(** Replace the first binding of [k], keeping its place, or append one. *)
Fixpoint assoc_set {A} (k : string) (v : A) (l : list (string * A)) : list (string * A) :=
  match l with
  | [] => [(k, v)]
  | (k', v') :: t =>
      if String.eqb k k' then (k, v) :: t else (k', v') :: assoc_set k v t
  end.

(** [df[name]] *)
Definition df_getitem (df : DataFrame) (name : string) : result Series :=
  match assoc name (columns df) with
  | Some cells => Ok {| s_index := index df; s_values := cells |}
  | None => Raise (KeyError name)
  end.

(** [series.map(f)]: [f] on every cell in row order; the index is kept. *)
Definition series_map (f : pyval -> result pyval) (s : Series) : result Series :=
  cells ← rmap f (s_values s);
  Ok {| s_index := s_index s; s_values := cells |}.

(** [df[name] = series], for a series that carries the frame's own index
    (the only use here), so that aligning on the index moves no cell. *)
Definition df_setitem (df : DataFrame) (name : string) (s : Series) : DataFrame :=
  {| index := index df; columns := assoc_set name (s_values s) (columns df) |}.

(** [df[names]]: the named columns, in the order asked. *)
Definition df_select (df : DataFrame) (names : list pyval) : result DataFrame :=
  cols ← rmap (fun n =>
                 match n with
                 | VStr name =>
                     match assoc name (columns df) with
                     | Some cells => Ok (name, cells)
                     | None => Raise (KeyError name)
                     end
                 | _ => Raise (KeyError "<not a str label>")
                 end) names;
  Ok {| index := index df; columns := cols |}.

(** [x in l] *)
Definition py_in (x : pyval) (l : list pyval) : bool := existsb (py_eq x) l.

(** ** The process state *)

Abbreviation loc := nat.

Record World := {
  frames : list DataFrame;          (* the dataframe objects, by address *)
  display : Display;                (* pandas' option registry *)
  files : gmap string string;       (* file name to content *)
  unwritable : gset string;         (* names [open(_, 'w')] refuses *)
  notebook : list string            (* what [display] has shown, oldest first *)
}.

Definition set_frames (fs : list DataFrame) (w : World) : World :=
  {| frames := fs; display := display w; files := files w;
     unwritable := unwritable w; notebook := notebook w |}.

Definition set_display (d : Display) (w : World) : World :=
  {| frames := frames w; display := d; files := files w;
     unwritable := unwritable w; notebook := notebook w |}.

Definition set_files (f : gmap string string) (w : World) : World :=
  {| frames := frames w; display := display w; files := f;
     unwritable := unwritable w; notebook := notebook w |}.

Definition set_notebook (n : list string) (w : World) : World :=
  {| frames := frames w; display := display w; files := files w;
     unwritable := unwritable w; notebook := n |}.

(** A call's outcome: the state it leaves, and its value or exception. *)
Definition outcome (A : Type) : Type := World * result A.

(** ** [column_sparklines] and [column_reset] *)

(** [pd.set_option(name, v)] and [pd.reset_option(name)] on one option. *)
Definition set_option (v : pyval) (s : setting) : setting :=
  {| defval := defval s; value := v |}.

Definition reset_option (s : setting) : setting :=
  {| defval := defval s; value := defval s |}.

Definition column_sparklines (w : World) : World :=
  let d := display w in
  let d := {| max_colwidth := set_option (VInt (-1)) (max_colwidth d);
              max_seq_items := max_seq_items d |} in
  let d := {| max_colwidth := max_colwidth d;
              max_seq_items := set_option (VInt 2) (max_seq_items d) |} in
  set_display d w.

Definition column_reset (w : World) : World :=
  let d := display w in
  let d := {| max_colwidth := reset_option (max_colwidth d);
              max_seq_items := max_seq_items d |} in
  let d := {| max_colwidth := max_colwidth d;
              max_seq_items := reset_option (max_seq_items d) |} in
  set_display d w.

(** ** The document around the exported table *)

Definition jupyter_table_css : string :=
"body {
                        margin: 0;
                        font-family: Helvetica;
                    }
                    table.dataframe {
                        border-collapse: collapse;
                        border: none;
                    }
                    table.dataframe tr {
                        border: none;
                    }
                    table.dataframe td, table.dataframe th {
                        margin: 0;
                        border: 1px solid #000000;
                        padding-left: 0.25em;
                        padding-right: 0.25em;
                    }
                    table.dataframe th:not(:empty) {
                        background-color: #f2f2f2;
                        text-align: left;
                        font-weight: bold;
                    }
                    table.dataframe tr:nth-child(2) th:empty {
                        border-left: none;
                        border-right: 1px dashed #888;
                    }
                    table.dataframe td {
                        border: 1px solid #bababa;
                        background-color: #ffffff;
                    }
                    ".

Definition html_head : string :=
"<!DOCTYPE html>
            <html>
            <head>
            <style>"
+:+ jupyter_table_css +:+
"</style>
            </head>
            <body>".

Definition html_tail : string :=
"</body>
               </html>".

(** ** [create] *)

(** Frames carry [str] column labels, as the docstring asks of [title]. *)
Definition label_of (v : pyval) : result string :=
  match v with
  | VStr s => Ok s
  | _ => Raise (TypeError "column label is not a str")
  end.

(** Lines 158-165: the [figsize] and [title] that [create] goes on with. *)
Definition effective_figsize (kwargs : kwdict) : pyval :=
  match kwargs !! "figsize" with
  | Some v => v
  | None => VTuple [VInt 4; VFloat (1 # 4)]
  end.

Definition effective_title (kwargs : kwdict) : pyval :=
  match kwargs !! "title" with
  | Some v => v
  | None => VStr "sparklines"
  end.

(** Lines 167-173: [columns] as a list. *)
Definition normalize_columns (columns : pyval) : pyval :=
  match columns with
  | VNone => VList []
  | VTuple l => VList l
  | VStr s => VList [VStr s]
  | other => other
  end.

(** Lines 178-179: [if title not in columns: columns = columns + [title]]. *)
Definition with_title (title columns : pyval) : result (list pyval) :=
  match columns with
  | VList l => Ok (if py_in title l then l else l ++ [title])
  | _ => Raise (TypeError "argument is not iterable")
  end.

(** [lambda x: sparkline(x, figsize=figsize, **kwargs)], the function mapped
    over the source column; its value is the markup, a [str]. *)
Definition sparkline_cell `{B : Backend} (figsize : pyval) (kwargs : kwdict)
    : pyval -> result pyval :=
  fun x => VStr <$> call_sparkline x figsize kwargs.

(** The body of [create].  [dataframe] is the address of the caller's
    object; the parameters [figsize] and [title] are received and, as in the
    source, overwritten before any use.  In copy mode the result is a new
    object at a fresh address; the intermediate copy is never reachable. *)
Definition create `{B : Backend} (dataframe : loc) (data : string)
    (figsize title copy columns : pyval) (kwargs : kwdict)
    (w : World) : outcome (option loc) :=
  match frames w !! dataframe with
  | None => (w, Raise (LibraryError "no such object"))
  | Some df0 =>
      let run : result (World * option loc) :=
        sparkline_data ← df_getitem df0 data;
        let figsize := effective_figsize kwargs in
        let title := effective_title kwargs in
        if py_truthy copy then
          let columns := normalize_columns columns in
          let df := df0 in
          cells ← series_map (sparkline_cell figsize kwargs) sparkline_data;
          name ← label_of title;
          let df := df_setitem df name cells in
          columns ← with_title title columns;
          df ← df_select df columns;
          Ok (set_frames (frames w ++ [df]) w, Some (length (frames w)))
        else
          cells ← series_map (sparkline_cell figsize kwargs) sparkline_data;
          name ← label_of title;
          Ok (set_frames (<[dataframe := df_setitem df0 name cells]> (frames w)) w,
              None)
      in
      match run with
      | Ok (w', r) => (w', Ok r)
      | Raise e => (w, Raise e)
      end
  end.

(** The parameters of [create] that a keyword can bind. *)
Definition create_params : list string := ["figsize"; "title"; "copy"; "columns"].

(** The call [create(dataframe, data, **kw)]: every keyword that names a
    parameter binds it, and only the others reach [**kwargs]. *)
Definition call_create `{B : Backend} (dataframe : loc) (data : string) (kw : kwdict)
    (w : World) : outcome (option loc) :=
  if decide (is_Some (kw !! "dataframe")) then
    (w, Raise (TypeError "create() got multiple values for argument 'dataframe'"))
  else if decide (is_Some (kw !! "data")) then
    (w, Raise (TypeError "create() got multiple values for argument 'data'"))
  else
    create dataframe data
           (kw_get kw "figsize" (VBool false))
           (kw_get kw "title" (VStr "sparklines"))
           (kw_get kw "copy" (VBool false))
           (kw_get kw "columns" VNone)
           (kw_rest create_params kw) w.

(** ** [show] and [to_html] *)

(** [display(HTML(a))] *)
Definition display_html (a : string) (w : World) : World :=
  set_notebook (notebook w ++ [a]) w.

Definition show `{B : Backend} (dataframe : loc) (index : bool) (w : World) : outcome unit :=
  match frames w !! dataframe with
  | None => (w, Raise (LibraryError "no such object"))
  | Some df =>
      let w := column_sparklines w in
      match frame_to_html (display w) df index false with
      | Raise e => (w, Raise e)
      | Ok a =>
          let w := display_html a w in
          let w := column_reset w in
          (w, Ok ())
      end
  end.

(** [f = open(name, 'w')] empties or creates the file; [f.write(s)] appends. *)
Definition file_write (name s : string) (w : World) : World :=
  set_files (<[name := default "" (files w !! name) +:+ s]> (files w)) w.

Definition to_html `{B : Backend} (dataframe : loc) (filename : string) (kwargs : kwdict)
    (w : World) : outcome unit :=
  match frames w !! dataframe with
  | None => (w, Raise (LibraryError "no such object"))
  | Some df =>
      let w := column_sparklines w in
      match frame_to_html (display w) df true false with
      | Raise e => (w, Raise e)
      | Ok a =>
          let w := column_reset w in
          let name := filename +:+ ".html" in
          if decide (name ∈ unwritable w) then (w, Raise (OSError name))
          else
            let w := set_files (<[name := ""]> (files w)) w in
            let w := file_write name html_head w in
            let w := file_write name a w in
            let w := file_write name html_tail w in
            (w, Ok ())
      end
  end.

(** ** A backend to run the model on concrete inputs

    It stands for matplotlib and pandas where a theorem is instantiated:
    every figure rasterises to the same PNG text, and a table is one [tr]
    per row with the [str] cells written as they are. *)
Module Demo.

Definition cell_html (v : pyval) : string :=
  match v with
  | VStr s => "<td>" +:+ s +:+ "</td>"
  | _ => "<td>...</td>"
  end.

Fixpoint row_html (cols : list (string * list pyval)) (i : nat) : string :=
  match cols with
  | [] => ""
  | (_, cells) :: t => from_option cell_html "<td></td>" (cells !! i) +:+ row_html t i
  end.

Definition table_html (df : DataFrame) : string :=
  "<table class=dataframe>"
  +:+ foldr (fun i acc => "<tr>" +:+ row_html (columns df) i +:+ "</tr>" +:+ acc)
            "" (seq 0 (nrows df))
  +:+ "</table>".

#[export] Instance backend : Backend := {|
  savefig_b64 := fun _ => Ok "iVBORw0KGgo=";
  frame_to_html := fun _ df _ _ => Ok (table_html df)
|}.

Definition ints (l : list Z) : pyval := VList (VInt <$> l).

(** Three rows, an [id] column and a [data] column of sequences. *)
Definition df1 : DataFrame := {|
  index := [VInt 0; VInt 1; VInt 2];
  columns := [("id", [VStr "a"; VStr "b"; VStr "c"]);
              ("data", [ints [1; 2; 3; 2; 1]; ints [5; 4]; ints [7]])]
|}.

(** pandas' defaults, with the cell width raised to 80 by the user. *)
Definition display1 : Display := {|
  max_colwidth := {| defval := VInt 50; value := VInt 80 |};
  max_seq_items := {| defval := VInt 100; value := VInt 100 |}
|}.

Definition w1 : World := {|
  frames := [df1]; display := display1; files := ∅;
  unwritable := ∅; notebook := []
|}.

End Demo.

(** ** Further inputs for concrete runs *)
Module Cases.

(** A backend on which both library services fail. *)
Definition broken : Backend := {|
  savefig_b64 := fun _ => Raise (LibraryError "savefig");
  frame_to_html := fun _ _ _ _ => Raise (LibraryError "to_html")
|}.

(** The frame of [Demo.df1] with an empty sequence in its second row. *)
Definition df_gap : DataFrame := {|
  index := [VInt 0; VInt 1; VInt 2];
  columns := [("id", [VStr "a"; VStr "b"; VStr "c"]);
              ("data", [Demo.ints [1; 2]; Demo.ints []; Demo.ints [7]])]
|}.

(** A frame with the two columns and no row. *)
Definition df_norows : DataFrame := {|
  index := [];
  columns := [("id", []); ("data", [])]
|}.

Definition with_frame (df : DataFrame) : World := set_frames [df] Demo.w1.

(** [Demo.w1] where [out.html] cannot be opened for writing. *)
Definition w_locked : World := {|
  frames := [Demo.df1]; display := Demo.display1; files := {["keep.txt" := "kept"]};
  unwritable := {["out.html"]}; notebook := []
|}.

End Cases.

(** * Properties *)

(** ** Record updates used in the statements *)

Definition with_point (v : pyval) (a : spark_args) : spark_args := {|
  point := v; point_color := point_color a; point_marker := point_marker a;
  point_fill := point_fill a; point_size := point_size a;
  point_alpha := point_alpha a;
  fill := fill a; fill_color := fill_color a; fill_alpha := fill_alpha a;
  figsize := figsize a; kwargs := kwargs a
|}.

Definition with_fill (v : pyval) (a : spark_args) : spark_args := {|
  point := point a; point_color := point_color a; point_marker := point_marker a;
  point_fill := point_fill a; point_size := point_size a;
  point_alpha := point_alpha a;
  fill := v; fill_color := fill_color a; fill_alpha := fill_alpha a;
  figsize := figsize a; kwargs := kwargs a
|}.

(** The marker call of a figure, if any, and its area fill, if any. *)
Definition is_marker (c : plot_call) : bool :=
  match c with PlotMarker _ _ _ _ _ _ _ _ => true | _ => false end.

Definition is_fill (c : plot_call) : bool :=
  match c with FillBetween _ _ _ _ _ => true | _ => false end.

(** The two limits in force, and their registered defaults. *)
Definition limits (w : World) : pyval * pyval :=
  (value (max_colwidth (display w)), value (max_seq_items (display w))).

Definition default_limits (w : World) : pyval * pyval :=
  (defval (max_colwidth (display w)), defval (max_seq_items (display w))).

(** The two presentation paths. *)
Inductive presentation :=
| ByShow (index : bool)
| ByToHtml (filename : string) (kwargs : kwdict).

Definition present `{B : Backend} (p : presentation) (dataframe : loc) (w : World)
    : outcome unit :=
  match p with
  | ByShow index => show dataframe index w
  | ByToHtml filename kwargs => to_html dataframe filename kwargs w
  end.

(** The [index=] argument a presentation path gives [DataFrame.to_html]:
    [show] its own parameter, [to_html] none, which is pandas' [True]. *)
Definition serialised_index (p : presentation) : bool :=
  match p with
  | ByShow index => index
  | ByToHtml _ _ => true
  end.

(** The dataset a call of [create] results in: the returned object in copy
    mode, the caller's own object otherwise. *)
Definition resulting_frame (w' : World) (dataframe : loc) (r : option loc)
    : option DataFrame :=
  match r with
  | Some l => frames w' !! l
  | None => frames w' !! dataframe
  end.

(** ** The renderer *)

Section Renderer.
Context `{B : Backend}.

Lemma py_getitem_last (x : pyval) (l : list pyval) :
  py_getitem (x :: l) (Z.of_nat (length (x :: l)) - 1)
  = Ok (default x (last (x :: l))).
Proof.
  unfold py_getitem.
  set (n := Z.of_nat (length (x :: l))).
  assert (Hn : 1 <= n) by (subst n; simpl length; lia).
  destruct (Z.ltb_spec (n - 1) 0) as [?|_]; [lia|].
  destruct (Z.ltb_spec (n - 1) 0) as [?|_]; [lia|].
  destruct (Z.leb_spec n (n - 1)) as [?|_]; [lia|].
  simpl orb. cbv iota.
  replace (Z.to_nat (n - 1)) with (pred (length (x :: l)))
    by (subst n; simpl length; lia).
  rewrite <- last_lookup.
  destruct (last (x :: l)) eqn:E; [done|]. by apply last_None in E.
Qed.

Lemma py_getitem_empty (i : Z) :
  py_getitem [] i = Raise (IndexError "list index out of range").
Proof.
  unfold py_getitem. simpl length. change (Z.of_nat 0) with 0.
  destruct (i <? 0) eqn:E.
  - rewrite Z.add_0_r, E. reflexivity.
  - rewrite E. destruct (Z.leb_spec 0 i) as [_|?]; [reflexivity|].
    apply Z.ltb_ge in E. lia.
Qed.

(** The figure of a sequence whose minimum exists, call by call. *)
Lemma sparkline_figure_nonempty (a : spark_args) (data : pyval)
    (x : pyval) (l : list pyval) (m : pyval) :
  py_list data = Ok (x :: l) ->
  py_min (x :: l) = Ok m ->
  let n := Z.of_nat (length (x :: l)) in
  sparkline_figure a data =
    Ok [NewFigure (figsize a); AddSubplot 111;
        PlotLine (x :: l) (kwargs a);
        AxisOff;
        FillBetween (py_range n) (x :: l) (py_repeat n m) (fill_color a) (fill_alpha a);
        PlotMarker (n - 1) (default x (last (x :: l))) (point_fill a) (point_marker a)
                   (point_color a) (point_size a) (point_alpha a) false;
        SubplotsAdjust "left" (VInt 0);
        SubplotsAdjust "right" (VFloat (99 # 100));
        SubplotsAdjust "bottom" (VFloat (1 # 10));
        SubplotsAdjust "top" (VFloat (9 # 10))].
Proof.
  intros Hl Hm n. unfold sparkline_figure.
  rewrite Hl. cbn [mbind result_bind]. rewrite Hm. cbn [mbind result_bind].
  fold n. subst n. rewrite py_getitem_last. reflexivity.
Qed.

Lemma sparkline_figure_point_irrelevant (v : pyval) (a : spark_args) (data : pyval) :
  sparkline_figure (with_point v a) data = sparkline_figure a data.
Proof. reflexivity. Qed.

Lemma sparkline_figure_fill_irrelevant (v : pyval) (a : spark_args) (data : pyval) :
  sparkline_figure (with_fill v a) data = sparkline_figure a data.
Proof. reflexivity. Qed.

End Renderer.

(** C3. The claim: the last element is redrawn with the marker styling, at
    the rightmost x, if and only if the [point] option is on.  The code
    never reads [point]: the figure is the same whatever its value, and with
    [point=False] on [[1, 2, 3]] the marker is still drawn, at x = 2 with
    value 3. *)
Theorem sparkline_marker_ignores_point :
  (forall (v : pyval) (a : spark_args) (data : pyval),
      sparkline_figure (with_point v a) data = sparkline_figure a data)
  /\ (exists fig : figure,
         sparkline_figure (with_point (VBool false) spark_defaults)
                          (Demo.ints [1; 2; 3]) = Ok fig
         /\ List.filter is_marker fig
            = [PlotMarker 2 (VInt 3) (VStr "red") (VStr ".") (VStr "red")
                          (VInt 6) (VFloat 1) false]).
Proof.
  split.
  - intros v a data. apply sparkline_figure_point_irrelevant.
  - eexists. split; [vm_compute; reflexivity | reflexivity].
Qed.

(** C4. The claim: the area between the line and the sequence's own minimum
    is shaded if and only if the [fill] option is on.  The code never reads
    [fill]: the figure is the same whatever its value, and with [fill=False]
    on [[1, 2, 3]] the area down to the minimum 1 is still shaded over
    x = 0, 1, 2. *)
Theorem sparkline_fill_ignores_fill :
  (forall (v : pyval) (a : spark_args) (data : pyval),
      sparkline_figure (with_fill v a) data = sparkline_figure a data)
  /\ (exists fig : figure,
         sparkline_figure (with_fill (VBool false) spark_defaults)
                          (Demo.ints [1; 2; 3]) = Ok fig
         /\ List.filter is_fill fig
            = [FillBetween [0; 1; 2] [VInt 1; VInt 2; VInt 3]
                           [VInt 1; VInt 1; VInt 1] (VStr "blue") (VFloat (1 # 10))]).
Proof.
  split.
  - intros v a data. apply sparkline_figure_fill_irrelevant.
  - eexists. split; [vm_compute; reflexivity | reflexivity].
Qed.

(** C8. On an empty sequence [sparkline] produces no image reference: it
    raises the [ValueError] of [min(data)], which no guard precedes; the
    last-element lookup [data[point_x]] would fail on it as well. *)
Theorem sparkline_empty_sequence_fails `{B : Backend} (a : spark_args) (data : pyval) :
  py_list data = Ok [] ->
  sparkline a data = Raise (ValueError "min() arg is an empty sequence")
  /\ py_min [] = Raise (ValueError "min() arg is an empty sequence")
  /\ py_getitem [] (Z.of_nat (length (@nil pyval)) - 1)
     = Raise (IndexError "list index out of range").
Proof.
  intros Hl. split; [|split].
  - unfold sparkline, sparkline_figure. rewrite Hl. reflexivity.
  - reflexivity.
  - apply py_getitem_empty.
Qed.

Lemma sparkline_empty_sequence_fails_witness :
  py_list (VList []) = Ok []
  /\ sparkline (B := Demo.backend) spark_defaults (VList [])
     = Raise (ValueError "min() arg is an empty sequence").
Proof.
  split; [reflexivity|].
  apply (sparkline_empty_sequence_fails (B := Demo.backend) spark_defaults (VList [])).
  reflexivity.
Defined.

(** ** The presenter *)

Section Presenter.
Context `{B : Backend}.

Lemma column_reset_limits (w : World) :
  limits (column_reset w) = default_limits w.
Proof. reflexivity. Qed.

Lemma column_reset_after_widen (w : World) :
  display (column_reset (column_sparklines w))
  = {| max_colwidth := reset_option (max_colwidth (display w));
       max_seq_items := reset_option (max_seq_items (display w)) |}.
Proof. reflexivity. Qed.

Lemma show_ok (d : loc) (idx : bool) (w w' : World) :
  show d idx w = (w', Ok ()) ->
  exists df a,
    frames w !! d = Some df
    /\ frame_to_html (display (column_sparklines w)) df idx false = Ok a
    /\ w' = column_reset (display_html a (column_sparklines w)).
Proof.
  unfold show. destruct (frames w !! d) as [df|]; [|discriminate].
  destruct (frame_to_html _ df idx false) as [a|e] eqn:Ea; [|discriminate].
  intros [= <-]. by exists df, a.
Qed.

Lemma to_html_ok (d : loc) (filename : string) (kw : kwdict) (w w' : World) :
  to_html d filename kw w = (w', Ok ()) ->
  exists df a,
    let name := filename +:+ ".html" in
    let w0 := column_reset (column_sparklines w) in
    frames w !! d = Some df
    /\ frame_to_html (display (column_sparklines w)) df true false = Ok a
    /\ (name ∉ unwritable w)
    /\ w' = file_write name html_tail
              (file_write name a
                 (file_write name html_head
                    (set_files (<[name := ""]> (files w0)) w0))).
Proof.
  unfold to_html. destruct (frames w !! d) as [df|]; [|discriminate].
  destruct (frame_to_html _ df true false) as [a|e] eqn:Ea; [|discriminate].
  case_decide as Hw; [discriminate|].
  intros [= <-]. by exists df, a.
Qed.

Lemma string_app_assoc (s t u : string) : (s +:+ t) +:+ u = s +:+ t +:+ u.
Proof.
  induction s as [|c s IH]; [done|].
  change (String c ((s +:+ t) +:+ u) = String c (s +:+ t +:+ u)).
  by rewrite IH.
Qed.

End Presenter.

Lemma file_write_same (name s c : string) (w : World) :
  files w !! name = Some c ->
  files (file_write name s w) !! name = Some (c +:+ s).
Proof. intros Hc. unfold file_write. simpl. rewrite Hc. apply lookup_insert_eq. Qed.

Lemma file_write_other (name s other : string) (w : World) :
  other <> name ->
  files (file_write name s w) !! other = files w !! other.
Proof. intros Hne. unfold file_write. simpl. by apply lookup_insert_ne. Qed.

(** C2, as the code has it.  The claim: after [show] or [to_html] returns,
    both limits have the values they had before the call.  The code resets
    them ([pd.reset_option]): after either path returns, both limits have
    their registered default values, whatever they were before, for every
    dataframe; they are the prior values when those were the defaults. *)
Theorem presentation_resets_limits_to_defaults `{B : Backend}
    (p : presentation) (d : loc) (w w' : World) :
  present p d w = (w', Ok ()) ->
  limits w' = default_limits w
  /\ default_limits w' = default_limits w
  /\ (limits w = default_limits w -> limits w' = limits w).
Proof.
  intros Hp.
  assert (Hd : limits w' = default_limits w /\ default_limits w' = default_limits w).
  { destruct p as [idx | filename kw]; simpl in Hp.
    - apply show_ok in Hp as (df & a & _ & _ & ->). by split.
    - apply to_html_ok in Hp as (df & a & _ & _ & _ & ->). by split. }
  destruct Hd as [Hl Hdef]. split; [done | split; [done|]].
  intros Hprior. by rewrite Hl.
Qed.

Lemma presentation_resets_limits_to_defaults_witness :
  limits (present (B := Demo.backend) (ByShow false) 0%nat Demo.w1).1
  = (VInt 50, VInt 100).
Proof.
  apply (presentation_resets_limits_to_defaults (B := Demo.backend)
           (ByShow false) 0%nat Demo.w1
           (present (B := Demo.backend) (ByShow false) 0%nat Demo.w1).1).
  vm_compute. reflexivity.
Defined.

(** C2, as claimed, fails: with the cell-width limit set to 80 before the
    call (default 50), both paths return and leave it at 50. *)
Lemma presentation_forgets_prior_limits :
  let shown := show (B := Demo.backend) 0%nat false Demo.w1 in
  let saved := to_html (B := Demo.backend) 0%nat "out" ∅ Demo.w1 in
  shown.2 = Ok () /\ limits shown.1 <> limits Demo.w1
  /\ saved.2 = Ok () /\ limits saved.1 <> limits Demo.w1.
Proof.
  repeat split; try (vm_compute; reflexivity); vm_compute; discriminate.
Qed.

(** C9. When [to_html] returns, the file named by the caller's path with
    [.html] appended holds exactly [html_head], then the table markup that
    [DataFrame.to_html(escape=False)] gave, then [html_tail]; no other file
    is touched. *)
Theorem to_html_writes_document `{B : Backend}
    (d : loc) (filename : string) (kw : kwdict) (w w' : World) :
  to_html d filename kw w = (w', Ok ()) ->
  exists (df : DataFrame) (a : string),
    frames w !! d = Some df
    /\ frame_to_html (display (column_sparklines w)) df true false = Ok a
    /\ files w' !! (filename +:+ ".html") = Some (html_head +:+ a +:+ html_tail)
    /\ (forall other : string,
           other <> filename +:+ ".html" -> files w' !! other = files w !! other).
Proof.
  intros Ht. apply to_html_ok in Ht as (df & a & Hdf & Ha & _ & ->).
  exists df, a. split; [done | split; [done | split]].
  - set (name := filename +:+ ".html").
    set (w0 := column_reset (column_sparklines w)).
    assert (H0 : files (set_files (<[name := ""]> (files w0)) w0) !! name = Some "")
      by apply lookup_insert_eq.
    pose proof (file_write_same name html_head _ _ H0) as H1.
    pose proof (file_write_same name a _ _ H1) as H2.
    pose proof (file_write_same name html_tail _ _ H2) as H3.
    rewrite H3, !string_app_assoc. reflexivity.
  - intros other Hne. rewrite !file_write_other by done.
    simpl. by rewrite lookup_insert_ne.
Qed.

Lemma to_html_writes_document_witness :
  files (to_html (B := Demo.backend) 0%nat "out" ∅ Demo.w1).1 !! "out.html"
  = Some (html_head +:+ Demo.table_html Demo.df1 +:+ html_tail).
Proof.
  destruct (to_html_writes_document (B := Demo.backend) 0%nat "out" ∅ Demo.w1
              (to_html (B := Demo.backend) 0%nat "out" ∅ Demo.w1).1)
    as (df & a & Hdf & Ha & Hfile & _).
  - vm_compute. reflexivity.
  - injection Hdf as <-. injection Ha as <-. exact Hfile.
Defined.

(** ** The column transformer *)

Section Transformer.
Context `{B : Backend}.

Lemma rmap_ok {A C} (f : A -> result C) (l : list A) (l' : list C) :
  rmap f l = Ok l' -> Forall2 (fun x y => f x = Ok y) l l'.
Proof.
  revert l'. induction l as [|x l IH]; intros l'; simpl.
  - intros [= <-]. constructor.
  - destruct (f x) as [y|e] eqn:Ef; [|discriminate]. simpl.
    destruct (rmap f l) as [ys|e]; [|discriminate]. simpl.
    intros [= <-]. constructor; [done | by apply IH].
Qed.

Lemma assoc_set_same {A} (k : string) (v : A) (l : list (string * A)) :
  assoc k (assoc_set k v l) = Some v.
Proof.
  induction l as [|[k' v'] l IH]; simpl.
  - by rewrite String.eqb_refl.
  - destruct (String.eqb k k') eqn:E; simpl.
    + by rewrite String.eqb_refl.
    + by rewrite E.
Qed.

Lemma assoc_set_other {A} (k k0 : string) (v : A) (l : list (string * A)) :
  k0 <> k -> assoc k0 (assoc_set k v l) = assoc k0 l.
Proof.
  intros Hne. induction l as [|[k' v'] l IH]; simpl.
  - apply String.eqb_neq in Hne. by rewrite Hne.
  - destruct (String.eqb k k') eqn:E; simpl.
    + apply String.eqb_eq in E as <-.
      apply String.eqb_neq in Hne. by rewrite Hne.
    + by rewrite IH.
Qed.

Lemma assoc_set_names {A} (k : string) (v : A) (l : list (string * A)) :
  (assoc_set k v l).*1 = if assoc k l is Some _ then l.*1 else l.*1 ++ [k].
Proof.
  induction l as [|[k' v'] l IH]; simpl; [done|].
  destruct (String.eqb k k') eqn:E.
  - apply String.eqb_eq in E as <-. done.
  - rewrite fmap_cons, IH. by destruct (assoc k l).
Qed.

Lemma py_eq_str (s : string) (y : pyval) : py_eq (VStr s) y = true -> y = VStr s.
Proof.
  destruct y; simpl; try discriminate.
  intros E. apply String.eqb_eq in E. by subst.
Qed.

Lemma with_title_ok (name : string) (cols : pyval) (sel : list pyval) :
  with_title (VStr name) cols = Ok sel -> VStr name ∈ sel.
Proof.
  unfold with_title. destruct cols; try discriminate.
  destruct (py_in (VStr name) l) eqn:E; intros [= <-].
  - unfold py_in in E. apply existsb_exists in E as (y & Hy & Heq).
    apply py_eq_str in Heq as ->. by apply list_elem_of_In.
  - set_solver.
Qed.

Lemma df_select_ok (df D' : DataFrame) (sel : list pyval) :
  df_select df sel = Ok D' ->
  index D' = index df
  /\ Forall2 (fun n col => n = VStr col.1 /\ assoc col.1 (columns df) = Some col.2)
            sel (columns D').
Proof.
  unfold df_select.
  destruct (rmap _ sel) as [cols|e] eqn:E; [|discriminate]. simpl.
  intros [= <-]. simpl. split; [done|].
  apply rmap_ok in E. eapply Forall2_impl; [exact E|].
  intros n [c cells]. simpl. destruct n; try discriminate.
  destruct (assoc s (columns df)) eqn:Ea; [|discriminate].
  intros [= <- <-]. done.
Qed.

Lemma select_assoc_sound {A} (src : list (string * A)) (sel : list pyval)
    (cols : list (string * A)) (c : string) (cells : A) :
  Forall2 (fun n col => n = VStr col.1 /\ assoc col.1 src = Some col.2) sel cols ->
  assoc c cols = Some cells -> assoc c src = Some cells.
Proof.
  induction 1 as [|n [k v] sel cols [_ Hk] _ IH]; simpl; [discriminate|].
  simpl in Hk. destruct (String.eqb c k) eqn:E; [|exact IH].
  apply String.eqb_eq in E as ->. by intros [= <-].
Qed.

Lemma select_assoc_complete {A} (src : list (string * A)) (sel : list pyval)
    (cols : list (string * A)) (c : string) :
  Forall2 (fun n col => n = VStr col.1 /\ assoc col.1 src = Some col.2) sel cols ->
  VStr c ∈ sel -> assoc c cols = assoc c src.
Proof.
  induction 1 as [|n [k v] sel cols [Hn Hk] _ IH]; simpl.
  - intros Hin. by apply elem_of_nil in Hin.
  - simpl in Hn, Hk. intros Hin. destruct (String.eqb c k) eqn:E.
    + apply String.eqb_eq in E as ->. done.
    + apply elem_of_cons in Hin as [Heq | Hin]; [|by apply IH].
      subst n. injection Heq as ->. by rewrite String.eqb_refl in E.
Qed.

End Transformer.

Section CreateOutcomes.
Context `{B : Backend}.
Variables (d : loc) (data : string) (fs t copy cols : pyval) (kw : kwdict).
Variables (w : World) (D : DataFrame).
Hypothesis HD : frames w !! d = Some D.

(** What a normal return of [create] in copy mode went through. *)
Lemma create_copy_ok (w' : World) (r : option loc) :
  py_truthy copy = true ->
  create d data fs t copy cols kw w = (w', Ok r) ->
  exists (src cells : Series) (name : string) (sel : list pyval) (Dnew : DataFrame),
    df_getitem D data = Ok src
    /\ series_map (sparkline_cell (effective_figsize kw) kw) src = Ok cells
    /\ effective_title kw = VStr name
    /\ with_title (VStr name) (normalize_columns cols) = Ok sel
    /\ df_select (df_setitem D name cells) sel = Ok Dnew
    /\ w' = set_frames (frames w ++ [Dnew]) w
    /\ r = Some (length (frames w)).
Proof.
  intros Hc. unfold create. rewrite HD, Hc.
  destruct (df_getitem D data) as [src|e] eqn:Es; [|discriminate]. simpl.
  destruct (series_map _ src) as [cells|e] eqn:Ec; [|discriminate]. simpl.
  destruct (effective_title kw) as [| | | |name| |] eqn:Et; try discriminate. simpl.
  destruct (with_title _ _) as [sel|e] eqn:Ew; [|discriminate]. simpl.
  destruct (df_select _ sel) as [Dnew|e] eqn:Ed; [|discriminate]. simpl.
  intros [= <- <-]. by exists src, cells, name, sel, Dnew.
Qed.

(** What a normal return of [create] without copy went through. *)
Lemma create_inplace_ok (w' : World) (r : option loc) :
  py_truthy copy = false ->
  create d data fs t copy cols kw w = (w', Ok r) ->
  exists (src cells : Series) (name : string),
    df_getitem D data = Ok src
    /\ series_map (sparkline_cell (effective_figsize kw) kw) src = Ok cells
    /\ effective_title kw = VStr name
    /\ w' = set_frames (<[d := df_setitem D name cells]> (frames w)) w
    /\ r = None.
Proof.
  intros Hc. unfold create. rewrite HD, Hc.
  destruct (df_getitem D data) as [src|e] eqn:Es; [|discriminate]. simpl.
  destruct (series_map _ src) as [cells|e] eqn:Ec; [|discriminate]. simpl.
  destruct (effective_title kw) as [| | | |name| |] eqn:Et; try discriminate. simpl.
  intros [= <- <-]. by exists src, cells, name.
Qed.

(** An exception leaves every object as it was. *)
Lemma create_raise (w' : World) (e : exn) :
  create d data fs t copy cols kw w = (w', Raise e) -> w' = w.
Proof.
  unfold create. rewrite HD.
  match goal with |- (match ?run with _ => _ end) = _ -> _ =>
    destruct run as [[w1 r1]|e1] end; [discriminate|].
  by intros [= <- _].
Qed.

End CreateOutcomes.

(** C5. In copy mode [create] never changes its input: whatever the call
    does, the caller's dataframe, like every other existing object, is
    afterwards what it was, column set and values; a normal return gives a
    dataframe (never [None]) at an address that did not exist before. *)
Theorem create_copy_leaves_input `{B : Backend}
    (d : loc) (data : string) (fs t copy cols : pyval) (kw : kwdict)
    (w : World) (D : DataFrame) :
  frames w !! d = Some D ->
  py_truthy copy = true ->
  let out := create d data fs t copy cols kw w in
  frames out.1 !! d = Some D
  /\ (forall (l : loc) (D0 : DataFrame),
         frames w !! l = Some D0 -> frames out.1 !! l = Some D0)
  /\ match out.2 with
     | Ok (Some l) => frames w !! l = None /\ is_Some (frames out.1 !! l)
     | Ok None => False
     | Raise _ => out.1 = w
     end.
Proof.
  intros HD Hc out.
  assert (Hkeep : forall (l : loc) (D0 : DataFrame),
             frames w !! l = Some D0 -> frames out.1 !! l = Some D0).
  { subst out. destruct (create d data fs t copy cols kw w) as [w' [r|e]] eqn:E.
    - apply (create_copy_ok _ _ _ _ _ _ _ _ _ HD) in E
        as (src & cells & name & sel & Dnew & _ & _ & _ & _ & _ & -> & _); [|done].
      intros l D0 Hl. simpl. by apply lookup_app_l_Some.
    - apply (create_raise _ _ _ _ _ _ _ _ _ HD) in E as ->. done. }
  split; [by apply Hkeep | split; [exact Hkeep|]].
  subst out. destruct (create d data fs t copy cols kw w) as [w' [r|e]] eqn:E; simpl.
  - apply (create_copy_ok _ _ _ _ _ _ _ _ _ HD) in E
      as (src & cells & name & sel & Dnew & _ & _ & _ & _ & _ & -> & ->); [|done].
    simpl. split.
    + by apply lookup_ge_None_2.
    + exists Dnew. by apply list_lookup_middle.
  - by apply (create_raise _ _ _ _ _ _ _ _ _ HD) in E.
Qed.

Lemma create_copy_leaves_input_witness :
  frames (create (B := Demo.backend) 0%nat "data" (VBool false) (VStr "sparklines")
            (VBool true) (VList [VStr "id"]) ∅ Demo.w1).1 !! 0%nat
  = Some Demo.df1.
Proof.
  apply (create_copy_leaves_input (B := Demo.backend) 0%nat "data" (VBool false)
           (VStr "sparklines") (VBool true) (VList [VStr "id"]) ∅ Demo.w1 Demo.df1);
    reflexivity.
Defined.

(** C6. Without copy, a call of [create] that returns has returned [None]
    and has changed the caller's own dataframe in exactly one column, the
    destination: it now holds the markup of the source column's cells, in
    place if the column existed and appended otherwise; every other column
    keeps its name, place and values, the row labels are kept, and no other
    object changes. *)
Theorem create_inplace_sets_destination `{B : Backend}
    (d : loc) (data : string) (fs t copy cols : pyval) (kw : kwdict)
    (w w' : World) (r : option loc) (D : DataFrame) :
  frames w !! d = Some D ->
  py_truthy copy = false ->
  create d data fs t copy cols kw w = (w', Ok r) ->
  r = None
  /\ exists (name : string) (src cells : list pyval) (D' : DataFrame),
       effective_title kw = VStr name
       /\ assoc data (columns D) = Some src
       /\ rmap (sparkline_cell (effective_figsize kw) kw) src = Ok cells
       /\ frames w' !! d = Some D'
       /\ index D' = index D
       /\ assoc name (columns D') = Some cells
       /\ (forall c : string, c <> name -> assoc c (columns D') = assoc c (columns D))
       /\ column_names D'
          = (if assoc name (columns D) is Some _ then column_names D
             else column_names D ++ [name])
       /\ (forall l : loc, l <> d -> frames w' !! l = frames w !! l).
Proof.
  intros HD Hc E.
  apply (create_inplace_ok _ _ _ _ _ _ _ _ _ HD) in E
    as (src & cells & name & Hsrc & Hmap & Ht & -> & ->); [|done].
  split; [done|].
  unfold df_getitem in Hsrc.
  destruct (assoc data (columns D)) as [col|] eqn:Ecol; [|discriminate].
  injection Hsrc as <-.
  unfold series_map in Hmap. simpl in Hmap.
  destruct (rmap _ col) as [out|e] eqn:Eout; [|discriminate].
  injection Hmap as <-.
  exists name, col, out, (df_setitem D name {| s_index := index D; s_values := out |}).
  repeat split; try done.
  - simpl. apply list_lookup_insert_eq. by eapply lookup_lt_Some.
  - apply assoc_set_same.
  - intros c Hne. by apply assoc_set_other.
  - apply assoc_set_names.
  - intros l Hne. simpl. by apply list_lookup_insert_ne.
Qed.

Lemma create_inplace_sets_destination_witness :
  column_names <$>
    frames (create (B := Demo.backend) 0%nat "data" (VBool false) (VStr "sparklines")
              (VBool false) VNone ∅ Demo.w1).1 !! 0%nat
  = Some ["id"; "data"; "sparklines"].
Proof.
  destruct (create_inplace_sets_destination (B := Demo.backend) 0%nat "data"
              (VBool false) (VStr "sparklines") (VBool false) VNone ∅ Demo.w1
              (create (B := Demo.backend) 0%nat "data" (VBool false)
                 (VStr "sparklines") (VBool false) VNone ∅ Demo.w1).1
              None Demo.df1)
    as (_ & name & src & cells & D' & Ht & _ & _ & HD' & _ & _ & _ & Hn & _).
  - reflexivity.
  - reflexivity.
  - vm_compute. reflexivity.
  - rewrite HD'. simpl. rewrite Hn. injection Ht as <-. reflexivity.
Defined.

Lemma series_map_cells `{B : Backend} (f : pyval -> result pyval) (D : DataFrame)
    (data : string) (src cells : Series) :
  df_getitem D data = Ok src ->
  series_map f src = Ok cells ->
  assoc data (columns D) = Some (s_values src)
  /\ Forall2 (fun x y => f x = Ok y) (s_values src) (s_values cells).
Proof.
  unfold df_getitem, series_map.
  destruct (assoc data (columns D)) as [col|]; [|discriminate].
  intros [= <-]. simpl.
  destruct (rmap f col) as [out|e] eqn:Eout; [|discriminate].
  intros [= <-]. simpl. split; [done | by apply rmap_ok].
Qed.

(** C7. A call of [create] that returns, in either mode, results in a
    dataset (the returned copy, or the caller's own object) with the row
    labels of the input, in the same order and number; the columns it keeps
    from the input hold the cells they held, and the destination column
    holds, row by row, the markup of the source column's cell of that row. *)
Theorem create_preserves_rows `{B : Backend}
    (d : loc) (data : string) (fs t copy cols : pyval) (kw : kwdict)
    (w w' : World) (r : option loc) (D : DataFrame) :
  frames w !! d = Some D ->
  create d data fs t copy cols kw w = (w', Ok r) ->
  exists (D' : DataFrame) (name : string) (src cells : list pyval),
    resulting_frame w' d r = Some D'
    /\ index D' = index D
    /\ nrows D' = nrows D
    /\ effective_title kw = VStr name
    /\ (forall (c : string) (col : list pyval),
           c <> name -> assoc c (columns D') = Some col ->
           assoc c (columns D) = Some col)
    /\ assoc data (columns D) = Some src
    /\ assoc name (columns D') = Some cells
    /\ Forall2 (fun x y => sparkline_cell (effective_figsize kw) kw x = Ok y) src cells.
Proof.
  intros HD E. destruct (py_truthy copy) eqn:Hc.
  - apply (create_copy_ok _ _ _ _ _ _ _ _ _ HD) in E
      as (src & cells & name & sel & Dnew & Hsrc & Hmap & Ht & Hsel & HDnew & -> & ->);
      [|done].
    destruct (series_map_cells _ _ _ _ _ Hsrc Hmap) as [Hcol Hcells].
    apply df_select_ok in HDnew as [Hidx Hcols]. simpl in Hidx, Hcols.
    exists Dnew, name, (s_values src), (s_values cells).
    repeat split; try done.
    + simpl. by apply list_lookup_middle.
    + unfold nrows. by rewrite Hidx.
    + intros c col Hne Hc'.
      rewrite <- (assoc_set_other name c (s_values cells)) by done.
      by eapply select_assoc_sound.
    + rewrite (select_assoc_complete _ _ _ _ Hcols) by by eapply with_title_ok.
      apply assoc_set_same.
  - apply (create_inplace_ok _ _ _ _ _ _ _ _ _ HD) in E
      as (src & cells & name & Hsrc & Hmap & Ht & -> & ->); [|done].
    destruct (series_map_cells _ _ _ _ _ Hsrc Hmap) as [Hcol Hcells].
    exists (df_setitem D name cells), name, (s_values src), (s_values cells).
    repeat split; try done.
    + simpl. apply list_lookup_insert_eq. by eapply lookup_lt_Some.
    + intros c col Hne. simpl. by rewrite assoc_set_other.
    + apply assoc_set_same.
Qed.

Lemma create_preserves_rows_witness :
  exists D' : DataFrame,
    resulting_frame
      (create (B := Demo.backend) 0%nat "data" (VBool false) (VStr "sparklines")
         (VBool true) (VTuple [VStr "id"]) ∅ Demo.w1).1 0%nat (Some 1%nat)
    = Some D'
    /\ index D' = [VInt 0; VInt 1; VInt 2].
Proof.
  destruct (create_preserves_rows (B := Demo.backend) 0%nat "data" (VBool false)
              (VStr "sparklines") (VBool true) (VTuple [VStr "id"]) ∅ Demo.w1
              (create (B := Demo.backend) 0%nat "data" (VBool false)
                 (VStr "sparklines") (VBool true) (VTuple [VStr "id"]) ∅ Demo.w1).1
              (Some 1%nat) Demo.df1)
    as (D' & name & src & cells & HD' & Hidx & _).
  - reflexivity.
  - vm_compute. reflexivity.
  - exists D'. split; [exact HD' | exact Hidx].
Defined.

(** C10. In copy mode with [columns] left at [None], a call of [create]
    that returns has returned a dataframe whose only column is the
    destination column: every column of the input is dropped from it. *)
Theorem create_copy_default_columns `{B : Backend}
    (d : loc) (data : string) (fs t copy : pyval) (kw : kwdict)
    (w w' : World) (r : option loc) (D : DataFrame) :
  frames w !! d = Some D ->
  py_truthy copy = true ->
  create d data fs t copy VNone kw w = (w', Ok r) ->
  exists (l : loc) (D' : DataFrame) (name : string),
    r = Some l
    /\ frames w' !! l = Some D'
    /\ effective_title kw = VStr name
    /\ column_names D' = [name].
Proof.
  intros HD Hc E.
  apply (create_copy_ok _ _ _ _ _ _ _ _ _ HD) in E
    as (src & cells & name & sel & Dnew & _ & _ & Ht & Hsel & HDnew & -> & ->);
    [|done].
  simpl in Hsel. injection Hsel as <-.
  apply df_select_ok in HDnew as [_ Hcols].
  exists (length (frames w)), Dnew, name. repeat split; try done.
  - simpl. by apply list_lookup_middle.
  - unfold column_names.
    inversion Hcols as [|n [k v] sel' cols' [Hn _] Hrest]; subst.
    inversion Hrest; subst. simpl in *. by injection Hn as <-.
Qed.

Lemma create_copy_default_columns_witness :
  exists D' : DataFrame,
    frames (create (B := Demo.backend) 0%nat "data" (VBool false) (VStr "sparklines")
              (VBool true) VNone ∅ Demo.w1).1 !! 1%nat = Some D'
    /\ column_names D' = ["sparklines"].
Proof.
  destruct (create_copy_default_columns (B := Demo.backend) 0%nat "data" (VBool false)
              (VStr "sparklines") (VBool true) ∅ Demo.w1
              (create (B := Demo.backend) 0%nat "data" (VBool false)
                 (VStr "sparklines") (VBool true) VNone ∅ Demo.w1).1
              (Some 1%nat) Demo.df1)
    as (l & D' & name & Hl & HD' & Ht & Hn).
  - reflexivity.
  - reflexivity.
  - vm_compute. reflexivity.
  - injection Hl as <-. injection Ht as <-. exists D'. split; [exact HD' | exact Hn].
Defined.

(** ** How [figsize] and [title] reach [create] *)

Lemma kw_rest_lookup (named : list string) (kw : kwdict) (k : string) :
  kw_rest named kw !! k = if decide (k ∈ named) then None else kw !! k.
Proof.
  unfold kw_rest. induction named as [|n named IH]; cbn [foldr].
  - rewrite decide_False; [done | apply not_elem_of_nil].
  - destruct (decide (k = n)) as [->|Hn].
    + rewrite lookup_delete_eq, decide_True; [done | apply elem_of_cons; by left].
    + rewrite lookup_delete_ne by done. rewrite IH.
      destruct (decide (k ∈ named)) as [Hin|Hin].
      * rewrite decide_True; [done | apply elem_of_cons; by right].
      * rewrite decide_False; [done|].
        rewrite elem_of_cons. by intros [?|?].
Qed.

(** The parameters [figsize] and [title] of [create] are dead: lines 158-165
    overwrite both before any use. *)
Lemma create_ignores_its_parameters `{B : Backend}
    (d : loc) (data : string) (fs fs' t t' copy cols : pyval) (kw : kwdict)
    (w : World) :
  create d data fs t copy cols kw w = create d data fs' t' copy cols kw w.
Proof. reflexivity. Qed.

(** Were [figsize] among [create]'s [**kwargs], no cell could be rendered:
    line 176 would pass it to [sparkline] twice. *)
Lemma call_sparkline_figsize_twice `{B : Backend} (x fs v : pyval) (kw : kwdict) :
  kw !! "figsize" = Some v ->
  exists msg : string, call_sparkline x fs kw = Raise (TypeError msg).
Proof.
  intros Hk. unfold call_sparkline. rewrite decide_True by (by rewrite Hk).
  by eexists.
Qed.

(** C1. The claim: a [figsize] or [title] bundled in the passthrough options
    overrides the parameter and is what the rendering and the destination
    column use.  The code: in a call [create(dataframe, data, **kw)] the keys
    [figsize] and [title] of [kw] bind the parameters of those names and never
    reach [**kwargs], so lines 158-165 always fall back to (4, 0.25) and
    'sparklines'; bundling them changes nothing in the outcome.  With
    figsize=(8, 1) and title='trend' on the three-row frame, the column
    written is 'sparklines' and no column 'trend' exists.  And had the body
    been handed a [**kwargs] with 'figsize' in it, the first row's call of
    [sparkline] would raise [TypeError] and nothing would be rendered. *)
Theorem create_drops_bundled_figsize_title :
  (forall kw : kwdict,
      effective_figsize (kw_rest create_params kw) = VTuple [VInt 4; VFloat (1 # 4)]
      /\ effective_title (kw_rest create_params kw) = VStr "sparklines")
  /\ (forall (B : Backend) (d : loc) (data : string) (kw : kwdict)
             (v1 v2 : pyval) (w : World),
         call_create d data (<["figsize" := v1]> (<["title" := v2]> kw)) w
         = call_create d data (delete "figsize" (delete "title" kw)) w)
  /\ (let kw : kwdict :=
        <["figsize" := VTuple [VInt 8; VInt 1]]> (<["title" := VStr "trend"]> ∅) in
      let out := call_create (B := Demo.backend) 0%nat "data" kw Demo.w1 in
      out.2 = Ok None
      /\ column_names <$> frames out.1 !! 0%nat = Some ["id"; "data"; "sparklines"])
  /\ (exists msg : string,
         create (B := Demo.backend) 0%nat "data" (VBool false) (VStr "sparklines")
                (VBool false) VNone {["figsize" := VTuple [VInt 8; VInt 1]]} Demo.w1
         = (Demo.w1, Raise (TypeError msg))).
Proof.
  split; [|split; [|split]]; [| | |eexists; vm_compute; reflexivity].
  - intros kw. unfold effective_figsize, effective_title.
    rewrite !kw_rest_lookup. split; reflexivity.
  - intros B d data kw v1 v2 w. unfold call_create.
    assert (Hrest : kw_rest create_params (<["figsize" := v1]> (<["title" := v2]> kw))
                    = kw_rest create_params (delete "figsize" (delete "title" kw))).
    { apply map_eq. intros k. rewrite !kw_rest_lookup.
      case_decide as Hin; [done|].
      assert (k <> "figsize" /\ k <> "title") as [H1 H2].
      { unfold create_params in Hin. set_solver. }
      by rewrite !lookup_insert_ne, !lookup_delete_ne. }
    assert (Hsame : forall k : string, k <> "figsize" -> k <> "title" ->
               <["figsize" := v1]> (<["title" := v2]> kw) !! k
               = delete "figsize" (delete "title" kw) !! k).
    { intros k H1 H2. by rewrite !lookup_insert_ne, !lookup_delete_ne. }
    rewrite Hrest. unfold kw_get.
    rewrite (Hsame "dataframe"), (Hsame "data"), (Hsame "copy"), (Hsame "columns")
      by done.
    repeat case_decide; try done; apply create_ignores_its_parameters.
  - split; vm_compute; reflexivity.
Qed.

(** * Further properties of the module *)

(** ** The renderer on integer sequences *)








(** ** The markup of one image *)

Lemma string_length_app (s t : string) :
  String.length (s +:+ t) = (String.length s + String.length t)%nat.
Proof.
  induction s as [|c s IH]; [done|].
  change (String c s +:+ t) with (String c (s +:+ t)). simpl. by rewrite IH.
Qed.

Lemma string_app_inj_r (s t u : string) : s +:+ u = t +:+ u -> s = t.
Proof.
  revert t. induction s as [|c s IH]; intros [|c' t] H; [done | | |].
  - exfalso. apply (f_equal String.length) in H.
    rewrite !string_length_app in H. simpl in H. lia.
  - exfalso. apply (f_equal String.length) in H.
    rewrite !string_length_app in H. simpl in H. lia.
  - change (String c (s +:+ u) = String c' (t +:+ u)) in H.
    injection H as -> H. f_equal. by apply IH.
Qed.

Lemma img_tag_inj (b1 b2 : string) : img_tag b1 = img_tag b2 -> b1 = b2.
Proof.
  unfold img_tag. intros H.
  apply (string_app_inj_r _ _ (dquote +:+ "/>")).
  vm_compute in H. 
  repeat (match type of H with String _ _ = String _ _ => injection H as H end).
  exact H.
Qed.

(** X2. When [sparkline] returns, the figure was built and rasterised, and
    the value is the [img] tag around the base64 text: the fixed opening
    [<img src=], a quote, [data:image/png;base64,], the text, a quote and
    [/>]; the text can be read back from the tag, which holds no other. *)
Theorem sparkline_markup `{B : Backend} (a : spark_args) (data : pyval) (s : string) :
  sparkline a data = Ok s ->
  exists (fig : figure) (b64 : string),
    sparkline_figure a data = Ok fig
    /\ savefig_b64 fig = Ok b64
    /\ s = "<img src=" +:+ dquote +:+ "data:image/png;base64," +:+ b64
           +:+ dquote +:+ "/>"
    /\ (forall b' : string, s = img_tag b' -> b' = b64).
Proof.
  unfold sparkline.
  destruct (sparkline_figure a data) as [fig|e]; [|discriminate].
  cbn [mbind result_bind].
  destruct (savefig_b64 fig) as [b64|e] eqn:Eb; [|discriminate].
  cbn [mbind result_bind]. intros [= <-].
  exists fig, b64. repeat split; try done.
  intros b' Hb. symmetry. by apply img_tag_inj.
Qed.

Lemma sparkline_markup_witness :
  exists (fig : figure) (b64 : string),
    sparkline_figure spark_defaults (Demo.ints [1; 2; 3; 2; 1]) = Ok fig
    /\ savefig_b64 (Backend := Demo.backend) fig = Ok b64.
Proof.
  destruct (sparkline_markup (B := Demo.backend) spark_defaults
              (Demo.ints [1; 2; 3; 2; 1])
              (img_tag "iVBORw0KGgo=")) as (fig & b64 & Hf & Hb & _).
  - vm_compute. reflexivity.
  - exists fig, b64. split; [exact Hf | exact Hb].
Defined.

(** ** Failures of [create] *)

Lemma rmap_first_raise {A C} (f : A -> result C) (l : list A) (i : nat) (x : A)
    (e : exn) :
  l !! i = Some x ->
  f x = Raise e ->
  (forall (j : nat) (y : A), (j < i)%nat -> l !! j = Some y -> exists z, f y = Ok z) ->
  rmap f l = Raise e.
Proof.
  revert i. induction l as [|h l IH]; intros i Hi Hx Hbefore; [done|].
  destruct i as [|i]; simpl in Hi.
  - injection Hi as ->. simpl. by rewrite Hx.
  - destruct (Hbefore 0%nat h) as [z Hz]; [lia | done |].
    simpl. rewrite Hz. cbn [mbind result_bind].
    rewrite (IH i Hi Hx); [done|].
    intros j y Hj Hy. apply (Hbefore (S j) y); [lia | done].
Qed.

(** X3. A source column that the dataframe does not have is a [KeyError] on
    its name, in either mode, before anything is rendered; no object
    changes. *)
Theorem create_missing_source_column `{B : Backend}
    (d : loc) (data : string) (fs t copy cols : pyval) (kw : kwdict)
    (w : World) (D : DataFrame) :
  frames w !! d = Some D ->
  assoc data (columns D) = None ->
  create d data fs t copy cols kw w = (w, Raise (KeyError data)).
Proof.
  intros HD Hcol. unfold create, df_getitem. rewrite HD, Hcol. reflexivity.
Qed.

Lemma create_missing_source_column_witness :
  create (B := Demo.backend) 0%nat "values" (VBool false) (VStr "sparklines")
         (VBool true) VNone ∅ Demo.w1
  = (Demo.w1, Raise (KeyError "values")).
Proof.
  apply (create_missing_source_column (B := Demo.backend) 0%nat "values"
           (VBool false) (VStr "sparklines") (VBool true) VNone ∅ Demo.w1 Demo.df1);
    reflexivity.
Defined.

(** X4. One row that cannot be rendered aborts the whole transformation:
    [create] raises the exception of the first such row, in either mode,
    and no object changes, so that the rows rendered before it leave no
    trace. *)
Theorem create_aborts_on_first_bad_row `{B : Backend}
    (d : loc) (data : string) (fs t copy cols : pyval) (kw : kwdict)
    (w : World) (D : DataFrame) (src : list pyval) (i : nat) (x : pyval) (e : exn) :
  frames w !! d = Some D ->
  assoc data (columns D) = Some src ->
  src !! i = Some x ->
  sparkline_cell (effective_figsize kw) kw x = Raise e ->
  (forall (j : nat) (y : pyval), (j < i)%nat -> src !! j = Some y ->
      exists z, sparkline_cell (effective_figsize kw) kw y = Ok z) ->
  create d data fs t copy cols kw w = (w, Raise e).
Proof.
  intros HD Hcol Hi Hx Hbefore.
  pose proof (rmap_first_raise _ _ _ _ _ Hi Hx Hbefore) as Hmap.
  unfold create, df_getitem, series_map. rewrite HD, Hcol.
  cbn [mbind result_bind s_values]. rewrite Hmap.
  by destruct (py_truthy copy).
Qed.

Lemma create_aborts_on_first_bad_row_witness :
  create (B := Demo.backend) 0%nat "data" (VBool false) (VStr "sparklines")
         (VBool false) VNone ∅ (Cases.with_frame Cases.df_gap)
  = (Cases.with_frame Cases.df_gap,
     Raise (ValueError "min() arg is an empty sequence")).
Proof.
  apply (create_aborts_on_first_bad_row (B := Demo.backend) 0%nat "data"
           (VBool false) (VStr "sparklines") (VBool false) VNone ∅
           (Cases.with_frame Cases.df_gap) Cases.df_gap
           [Demo.ints [1; 2]; Demo.ints []; Demo.ints [7]] 1%nat (Demo.ints [])).
  - reflexivity.
  - reflexivity.
  - reflexivity.
  - reflexivity.
  - intros [|j] y Hj Hy; [|lia]. injection Hy as <-. eexists. vm_compute. reflexivity.
Defined.

(** X5. [create] acts on dataframes only: the display limits, the files and
    the notebook output are never touched.  An exception leaves every object
    as it was; a return without copy leaves the number of objects as it was;
    a return with copy adds one object, the one returned. *)
Theorem create_touches_frames_only `{B : Backend}
    (d : loc) (data : string) (fs t copy cols : pyval) (kw : kwdict) (w : World) :
  let out := create d data fs t copy cols kw w in
  display out.1 = display w
  /\ files out.1 = files w
  /\ unwritable out.1 = unwritable w
  /\ notebook out.1 = notebook w
  /\ match out.2 with
     | Raise _ => out.1 = w
     | Ok None => length (frames out.1) = length (frames w)
     | Ok (Some l) => l = length (frames w)
                      /\ length (frames out.1) = S (length (frames w))
     end.
Proof.
  intros out. subst out.
  destruct (frames w !! d) as [D|] eqn:HD.
  - destruct (create d data fs t copy cols kw w) as [w' [r|e]] eqn:E.
    + destruct (py_truthy copy) eqn:Hc.
      * apply (create_copy_ok _ _ _ _ _ _ _ _ _ HD) in E
          as (src & cells & name & sel & Dnew & _ & _ & _ & _ & _ & -> & ->); [|done].
        simpl. repeat split; try done. rewrite length_app. simpl. lia.
      * apply (create_inplace_ok _ _ _ _ _ _ _ _ _ HD) in E
          as (src & cells & name & _ & _ & _ & -> & ->); [|done].
        simpl. repeat split; try done. apply length_insert.
    + apply (create_raise _ _ _ _ _ _ _ _ _ HD) in E as ->. by simpl.
  - unfold create. rewrite HD. by simpl.
Qed.

(** ** Returns of [create] *)

Lemma create_inplace_run `{B : Backend}
    (d : loc) (data : string) (fs t copy cols : pyval) (kw : kwdict)
    (w : World) (D : DataFrame) (src cells : list pyval) (name : string) :
  frames w !! d = Some D ->
  py_truthy copy = false ->
  assoc data (columns D) = Some src ->
  rmap (sparkline_cell (effective_figsize kw) kw) src = Ok cells ->
  effective_title kw = VStr name ->
  create d data fs t copy cols kw w
  = (set_frames (<[d := {| index := index D;
                           columns := assoc_set name cells (columns D) |}]>
                   (frames w)) w,
     Ok None).
Proof.
  intros HD Hc Hcol Hmap Ht.
  unfold create, df_getitem, series_map. rewrite HD, Hc, Hcol.
  cbn [mbind result_bind s_values]. rewrite Hmap, Ht. reflexivity.
Qed.

Lemma assoc_set_twice {A} (k : string) (v : A) (l : list (string * A)) :
  assoc_set k v (assoc_set k v l) = assoc_set k v l.
Proof.
  induction l as [|[k' v'] l IH]; simpl.
  - by rewrite String.eqb_refl.
  - destruct (String.eqb k k') eqn:E; simpl.
    + by rewrite String.eqb_refl.
    + by rewrite E, IH.
Qed.

(** X6. Without copy, [create] can be run again: when the destination is not
    the source column itself, a second call with the same arguments returns
    [None] and leaves every object as the first call left it. *)
Theorem create_inplace_twice `{B : Backend}
    (d : loc) (data : string) (fs t copy cols : pyval) (kw : kwdict)
    (w w1 : World) (r : option loc) (D : DataFrame) :
  frames w !! d = Some D ->
  py_truthy copy = false ->
  effective_title kw <> VStr data ->
  create d data fs t copy cols kw w = (w1, Ok r) ->
  create d data fs t copy cols kw w1 = (w1, Ok None).
Proof.
  intros HD Hc Hne E.
  apply (create_inplace_ok _ _ _ _ _ _ _ _ _ HD) in E
    as (src & cells & name & Hsrc & Hmap & Ht & -> & ->); [|done].
  unfold df_getitem in Hsrc.
  destruct (assoc data (columns D)) as [col|] eqn:Ecol; [|discriminate].
  injection Hsrc as <-.
  unfold series_map in Hmap. cbn [s_values s_index] in Hmap.
  destruct (rmap _ col) as [out|e] eqn:Eout; [|discriminate].
  injection Hmap as <-.
  assert (Hdn : data <> name) by (intros ->; by apply Hne).
  assert (Hlt : (d < length (frames w))%nat) by by eapply lookup_lt_Some.
  erewrite (create_inplace_run d data fs t copy cols kw _ _ col out name);
    [| simpl; by apply list_lookup_insert_eq | done
     | simpl; by rewrite assoc_set_other | done | done].
  f_equal. unfold set_frames, df_setitem. simpl.
  by rewrite assoc_set_twice, list_insert_insert_eq.
Qed.

Lemma create_inplace_twice_witness :
  let w1 := (create (B := Demo.backend) 0%nat "data" (VBool false)
               (VStr "sparklines") (VBool false) VNone ∅ Demo.w1).1 in
  create (B := Demo.backend) 0%nat "data" (VBool false) (VStr "sparklines")
         (VBool false) VNone ∅ w1 = (w1, Ok None).
Proof.
  apply (create_inplace_twice (B := Demo.backend) 0%nat "data" (VBool false)
           (VStr "sparklines") (VBool false) VNone ∅ Demo.w1 _ None Demo.df1).
  - reflexivity.
  - reflexivity.
  - discriminate.
  - vm_compute. reflexivity.
Defined.

(** X7. On a dataframe without rows nothing is rendered, so nothing can
    fail in the renderer, whatever the passthrough options hold: without
    copy, [create] returns [None] and the destination column exists
    afterwards, empty. *)
Theorem create_on_no_rows `{B : Backend}
    (d : loc) (data : string) (fs t copy cols : pyval) (kw : kwdict)
    (w : World) (D : DataFrame) (name : string) :
  frames w !! d = Some D ->
  py_truthy copy = false ->
  assoc data (columns D) = Some [] ->
  effective_title kw = VStr name ->
  let out := create d data fs t copy cols kw w in
  out.2 = Ok None
  /\ exists D' : DataFrame,
       frames out.1 !! d = Some D'
       /\ index D' = index D
       /\ assoc name (columns D') = Some [].
Proof.
  intros HD Hc Hcol Ht out. subst out.
  rewrite (create_inplace_run d data fs t copy cols kw w D [] [] name) by done.
  split; [done|]. eexists. split; [|split].
  - simpl. apply list_lookup_insert_eq. by eapply lookup_lt_Some.
  - done.
  - simpl. apply assoc_set_same.
Qed.

Lemma create_on_no_rows_witness :
  (create (B := Demo.backend) 0%nat "data" (VBool false) (VStr "sparklines")
          (VBool false) VNone {["figsize" := VInt 3]}
          (Cases.with_frame Cases.df_norows)).2 = Ok None.
Proof.
  apply (create_on_no_rows (B := Demo.backend) 0%nat "data" (VBool false)
           (VStr "sparklines") (VBool false) VNone {["figsize" := VInt 3]}
           (Cases.with_frame Cases.df_norows) Cases.df_norows "sparklines");
    reflexivity.
Defined.

(** ** The column subset of copy mode *)

Lemma py_in_names (name : string) (names : list string) :
  py_in (VStr name) (VStr <$> names) = bool_decide (name ∈ names).
Proof.
  unfold py_in. induction names as [|n names IH]; [done|].
  rewrite fmap_cons. cbn [existsb]. rewrite IH. cbn [py_eq].
  destruct (String.eqb_spec name n) as [->|Hne].
  - simpl. symmetry. apply bool_decide_eq_true. apply elem_of_cons. by left.
  - simpl. apply bool_decide_ext. rewrite elem_of_cons.
    split; [by right | by intros [?|?]].
Qed.

Lemma select_names {A} (src : list (string * A)) (names : list string)
    (cols : list (string * A)) :
  Forall2 (fun n col => n = VStr col.1 /\ assoc col.1 src = Some col.2)
          (VStr <$> names) cols ->
  cols.*1 = names.
Proof.
  revert cols. induction names as [|n names IH]; intros cols H.
  - by inversion H.
  - rewrite fmap_cons in H. inversion H as [|? [k v] ? cols' [Hn _] Hrest]; subst.
    simpl in Hn. injection Hn as ->. rewrite fmap_cons. simpl. f_equal. by apply IH.
Qed.

(** X8. In copy mode with a column subset, given as a list, as a tuple or
    as one name, the dataframe returned has exactly the requested columns in
    the requested order, followed by the destination column unless that was
    requested itself; each requested column other than the destination holds
    the cells it holds in the input. *)
Theorem create_copy_columns `{B : Backend}
    (d : loc) (data : string) (fs t copy cols : pyval) (kw : kwdict)
    (w w' : World) (r : option loc) (D : DataFrame) (names : list string) :
  frames w !! d = Some D ->
  py_truthy copy = true ->
  normalize_columns cols = VList (VStr <$> names) ->
  create d data fs t copy cols kw w = (w', Ok r) ->
  exists (l : loc) (D' : DataFrame) (name : string),
    r = Some l
    /\ frames w' !! l = Some D'
    /\ effective_title kw = VStr name
    /\ column_names D'
       = (if bool_decide (name ∈ names) then names else names ++ [name])
    /\ (forall c : string,
           c ∈ names -> c <> name ->
           assoc c (columns D') = assoc c (columns D)).
Proof.
  intros HD Hc Hnorm E.
  apply (create_copy_ok _ _ _ _ _ _ _ _ _ HD) in E
    as (src & cells & name & sel & Dnew & _ & _ & Ht & Hsel & HDnew & -> & ->);
    [|done].
  rewrite Hnorm in Hsel. cbn [with_title] in Hsel. rewrite py_in_names in Hsel.
  injection Hsel as <-.
  apply df_select_ok in HDnew as [_ Hcols].
  exists (length (frames w)), Dnew, name. repeat split; try done.
  - simpl. by apply list_lookup_middle.
  - unfold column_names. apply select_names with (src := columns (df_setitem D name cells)).
    destruct (bool_decide (name ∈ names)); [done|].
    by rewrite fmap_app.
  - intros c Hin Hne.
    rewrite (select_assoc_complete _ _ _ _ Hcols).
    + simpl. by apply assoc_set_other.
    + destruct (bool_decide (name ∈ names)).
      * apply list_elem_of_fmap. by exists c.
      * apply elem_of_app. left. apply list_elem_of_fmap. by exists c.
Qed.

Lemma create_copy_columns_witness :
  exists D' : DataFrame,
    frames (create (B := Demo.backend) 0%nat "data" (VBool false) (VStr "sparklines")
              (VBool true) (VStr "id") ∅ Demo.w1).1 !! 1%nat = Some D'
    /\ column_names D' = ["id"; "sparklines"].
Proof.
  destruct (create_copy_columns (B := Demo.backend) 0%nat "data" (VBool false)
              (VStr "sparklines") (VBool true) (VStr "id") ∅ Demo.w1
              (create (B := Demo.backend) 0%nat "data" (VBool false)
                 (VStr "sparklines") (VBool true) (VStr "id") ∅ Demo.w1).1
              (Some 1%nat) Demo.df1 ["id"])
    as (l & D' & name & Hl & HD' & Ht & Hn & _).
  - reflexivity.
  - reflexivity.
  - reflexivity.
  - vm_compute. reflexivity.
  - injection Hl as <-. injection Ht as <-. exists D'. split; [exact HD' | exact Hn].
Defined.




(** ** The presenter's effects *)

(** X10. When [show] returns it has put one item on the notebook output,
    after whatever was there: the table markup that pandas produced, with
    markup left unescaped and the row labels as asked, while the cell-width
    limit was -1 and the sequence-items limit 2.  Files and dataframes are
    as before. *)
Theorem show_displays_table `{B : Backend} (d : loc) (idx : bool) (w w' : World) :
  show d idx w = (w', Ok ()) ->
  exists (df : DataFrame) (a : string),
    frames w !! d = Some df
    /\ limits (column_sparklines w) = (VInt (-1), VInt 2)
    /\ frame_to_html (display (column_sparklines w)) df idx false = Ok a
    /\ notebook w' = notebook w ++ [a]
    /\ files w' = files w
    /\ frames w' = frames w.
Proof.
  intros Hs. apply show_ok in Hs as (df & a & Hdf & Ha & ->).
  by exists df, a.
Qed.

Lemma show_displays_table_witness :
  notebook (show (B := Demo.backend) 0%nat false Demo.w1).1
  = [Demo.table_html Demo.df1].
Proof.
  destruct (show_displays_table (B := Demo.backend) 0%nat false Demo.w1
              (show (B := Demo.backend) 0%nat false Demo.w1).1)
    as (df & a & Hdf & _ & Ha & Hn & _).
  - vm_compute. reflexivity.
  - injection Hdf as <-. injection Ha as <-. exact Hn.
Defined.

(** X11. When pandas fails to serialise the table, either presentation path
    raises that exception with the limits still widened, at -1 and 2: the
    reset is never reached.  Nothing is displayed and no file is written. *)
Theorem presentation_failure_leaves_limits_widened `{B : Backend}
    (p : presentation) (d : loc) (w : World) (df : DataFrame) (e : exn) :
  frames w !! d = Some df ->
  frame_to_html (display (column_sparklines w)) df (serialised_index p) false
  = Raise e ->
  let out := present p d w in
  out.2 = Raise e
  /\ limits out.1 = (VInt (-1), VInt 2)
  /\ notebook out.1 = notebook w
  /\ files out.1 = files w.
Proof.
  intros Hdf He out. subst out.
  destruct p as [idx | filename kw]; cbn [present serialised_index] in *;
    [unfold show | unfold to_html]; rewrite Hdf, He; by simpl.
Qed.

Lemma presentation_failure_leaves_limits_widened_witness :
  limits (present (B := Cases.broken) (ByToHtml "out" ∅) 0%nat Demo.w1).1
  = (VInt (-1), VInt 2).
Proof.
  apply (presentation_failure_leaves_limits_widened (B := Cases.broken)
           (ByToHtml "out" ∅) 0%nat Demo.w1 Demo.df1 (LibraryError "to_html"));
    reflexivity.
Defined.

(** X12. When the table serialises but the file [filename + '.html'] cannot
    be opened for writing, [to_html] raises [OSError] on that name; by then
    the limits are back at their defaults, and no file has changed. *)
Theorem to_html_unwritable `{B : Backend}
    (d : loc) (filename : string) (kw : kwdict) (w : World)
    (df : DataFrame) (a : string) :
  frames w !! d = Some df ->
  frame_to_html (display (column_sparklines w)) df true false = Ok a ->
  filename +:+ ".html" ∈ unwritable w ->
  let out := to_html d filename kw w in
  out.2 = Raise (OSError (filename +:+ ".html"))
  /\ limits out.1 = default_limits w
  /\ files out.1 = files w
  /\ frames out.1 = frames w.
Proof.
  intros Hdf Ha Hlock out. subst out. unfold to_html. rewrite Hdf, Ha.
  rewrite decide_True by done. by simpl.
Qed.

Lemma to_html_unwritable_witness :
  let out := to_html (B := Demo.backend) 0%nat "out" ∅ Cases.w_locked in
  out.2 = Raise (OSError "out.html") /\ files out.1 !! "keep.txt" = Some "kept".
Proof.
  destruct (to_html_unwritable (B := Demo.backend) 0%nat "out" ∅ Cases.w_locked
              Demo.df1 (Demo.table_html Demo.df1)) as (Hr & _ & Hf & _).
  - reflexivity.
  - reflexivity.
  - vm_compute. reflexivity.
  - simpl. split; [exact Hr | by rewrite Hf].
Defined.

(** X13. Neither presentation path ever changes a dataframe, the registered
    defaults of the two limits, or which files can be written, whatever its
    outcome. *)
Theorem presentation_reads_frames_only `{B : Backend}
    (p : presentation) (d : loc) (w : World) :
  let out := present p d w in
  frames out.1 = frames w
  /\ default_limits out.1 = default_limits w
  /\ unwritable out.1 = unwritable w.
Proof.
  intros out. subst out.
  destruct p as [idx | filename kw]; simpl; [unfold show | unfold to_html];
    destruct (frames w !! d) as [df|]; try done;
    destruct (frame_to_html _ df _ false) as [a|e]; try done.
  by case_decide.
Qed.

(** X14. [column_reset] undoes [column_sparklines] exactly when the two
    limits were at their defaults before: otherwise the pair changes the
    state. *)
Theorem reset_undoes_widen_iff_defaults (w : World) :
  column_reset (column_sparklines w) = w <-> limits w = default_limits w.
Proof.
  split.
  - intros H. rewrite <- H at 1. reflexivity.
  - destruct w as [fr [[d1 v1] [d2 v2]] fi un nb].
    unfold limits, default_limits. simpl. intros [= -> ->]. reflexivity.
Qed.

(** ** Options on their way to the plot *)

Lemma sparkline_figure_ok (a : spark_args) (data : pyval) (fig : figure) :
  sparkline_figure a data = Ok fig ->
  exists (x : pyval) (l : list pyval) (m : pyval),
    py_list data = Ok (x :: l) /\ py_min (x :: l) = Ok m.
Proof.
  unfold sparkline_figure.
  destruct (py_list data) as [[|x l]|e]; cbn [mbind result_bind]; try discriminate.
  destruct (py_min (x :: l)) as [m|e] eqn:Em; [|discriminate].
  intros _. by exists x, l, m.
Qed.

(** X15. A cell rendered by [create] is styled by the passthrough options:
    the figure has the size [create] passes, the fill takes [fill_color] and
    [fill_alpha], the marker takes [point_fill] as its colour and
    [point_color] as its edge colour, with [point_marker], [point_size] and
    [point_alpha], each at its default when not given; the line plot
    receives exactly the options that do not name a parameter of
    [sparkline]. *)
Theorem call_sparkline_styles `{B : Backend} (x fs : pyval) (kw : kwdict) (s : string) :
  call_sparkline x fs kw = Ok s ->
  exists (fig : figure) (b64 : string) (ys : list pyval) (rest : kwdict)
         (xs : list Z) (base : list pyval) (px : Z) (py : pyval),
    savefig_b64 fig = Ok b64
    /\ s = img_tag b64
    /\ fig !! 0%nat = Some (NewFigure fs)
    /\ fig !! 2%nat = Some (PlotLine ys rest)
    /\ (forall k : string,
           rest !! k = if decide (k ∈ sparkline_params) then None else kw !! k)
    /\ fig !! 4%nat
       = Some (FillBetween xs ys base
                 (kw_get kw "fill_color" (VStr "blue"))
                 (kw_get kw "fill_alpha" (VFloat (1 # 10))))
    /\ fig !! 5%nat
       = Some (PlotMarker px py
                 (kw_get kw "point_fill" (VStr "red"))
                 (kw_get kw "point_marker" (VStr "."))
                 (kw_get kw "point_color" (VStr "red"))
                 (kw_get kw "point_size" (VInt 6))
                 (kw_get kw "point_alpha" (VFloat 1)) false).
Proof.
  unfold call_sparkline. case_decide as H1; [discriminate|].
  case_decide as H2; [discriminate|].
  intros Hs. apply sparkline_markup in Hs as (fig & b64 & Hfig & Hb & Hs & _).
  destruct (sparkline_figure_ok _ _ _ Hfig) as (h & l & m & Hl & Hm).
  rewrite (sparkline_figure_nonempty _ _ h l m Hl Hm) in Hfig.
  injection Hfig as Hfig.
  set (n := Z.of_nat (length (h :: l))) in Hfig.
  exists fig, b64, (h :: l), (kw_rest sparkline_params kw),
         (py_range n), (py_repeat n m), (n - 1), (default h (last (h :: l))).
  split; [exact Hb|]. split; [exact Hs|].
  rewrite <- Hfig.
  split; [reflexivity|]. split; [reflexivity|].
  split; [|split; reflexivity].
  intros k. apply kw_rest_lookup.
Qed.

Lemma call_sparkline_styles_witness :
  exists (fig : figure) (xs : list Z) (ys base : list pyval),
    fig !! 4%nat = Some (FillBetween xs ys base (VStr "green") (VFloat (1 # 10))).
Proof.
  destruct (call_sparkline_styles (B := Demo.backend) (Demo.ints [1; 2])
              (VTuple [VInt 4; VFloat (1 # 4)]) {["fill_color" := VStr "green"]}
              (img_tag "iVBORw0KGgo="))
    as (fig & b64 & ys & rest & xs & base & px & py & _ & _ & _ & _ & _ & Hf & _).
  - vm_compute. reflexivity.
  - exists fig, xs, ys, base. exact Hf.
Defined.

(** X16. The two modes agree on what they compute: when a call with copy
    and a call without, on the same dataframe, source column and options,
    both return, the destination column of the copy holds the cells that
    the call without copy writes into the caller's dataframe, under the
    same row labels. *)
Theorem create_modes_agree `{B : Backend}
    (d : loc) (data : string) (fs t c1 c2 cols1 cols2 : pyval) (kw : kwdict)
    (w w1 w2 : World) (r1 r2 : option loc) (D : DataFrame) :
  frames w !! d = Some D ->
  py_truthy c1 = true ->
  py_truthy c2 = false ->
  create d data fs t c1 cols1 kw w = (w1, Ok r1) ->
  create d data fs t c2 cols2 kw w = (w2, Ok r2) ->
  exists (D1 D2 : DataFrame) (name : string) (cells : list pyval),
    resulting_frame w1 d r1 = Some D1
    /\ resulting_frame w2 d r2 = Some D2
    /\ effective_title kw = VStr name
    /\ assoc name (columns D1) = Some cells
    /\ assoc name (columns D2) = Some cells
    /\ index D1 = index D2.
Proof.
  intros HD H1 H2 E1 E2.
  apply (create_copy_ok _ _ _ _ _ _ _ _ _ HD) in E1
    as (src & cells & name & sel & Dnew & Hsrc & Hmap & Ht & Hsel & HDnew & -> & ->);
    [|done].
  apply (create_inplace_ok _ _ _ _ _ _ _ _ _ HD) in E2
    as (src' & cells' & name' & Hsrc' & Hmap' & Ht' & -> & ->); [|done].
  rewrite Hsrc in Hsrc'. injection Hsrc' as <-.
  rewrite Hmap in Hmap'. injection Hmap' as <-.
  rewrite Ht in Ht'. injection Ht' as <-.
  apply df_select_ok in HDnew as [Hidx Hcols].
  exists Dnew, (df_setitem D name cells), name, (s_values cells).
  repeat split; try done.
  - simpl. by apply list_lookup_middle.
  - simpl. apply list_lookup_insert_eq. by eapply lookup_lt_Some.
  - rewrite (select_assoc_complete _ _ _ _ Hcols) by by eapply with_title_ok.
    apply assoc_set_same.
  - apply assoc_set_same.
Qed.

Lemma create_modes_agree_witness :
  exists (D1 D2 : DataFrame) (cells : list pyval),
    assoc "sparklines" (columns D1) = Some cells
    /\ assoc "sparklines" (columns D2) = Some cells
    /\ frames (create (B := Demo.backend) 0%nat "data" (VBool false)
                 (VStr "sparklines") (VBool true) VNone ∅ Demo.w1).1 !! 1%nat
       = Some D1
    /\ frames (create (B := Demo.backend) 0%nat "data" (VBool false)
                 (VStr "sparklines") (VBool false) VNone ∅ Demo.w1).1 !! 0%nat
       = Some D2.
Proof.
  destruct (create_modes_agree (B := Demo.backend) 0%nat "data" (VBool false)
              (VStr "sparklines") (VBool true) (VBool false) VNone VNone ∅ Demo.w1
              (create (B := Demo.backend) 0%nat "data" (VBool false)
                 (VStr "sparklines") (VBool true) VNone ∅ Demo.w1).1
              (create (B := Demo.backend) 0%nat "data" (VBool false)
                 (VStr "sparklines") (VBool false) VNone ∅ Demo.w1).1
              (Some 1%nat) None Demo.df1)
    as (D1 & D2 & name & cells & HD1 & HD2 & Ht & Hc1 & Hc2 & _).
  - reflexivity.
  - reflexivity.
  - reflexivity.
  - vm_compute. reflexivity.
  - vm_compute. reflexivity.
  - injection Ht as <-. exists D1, D2, cells. repeat split; assumption.
Defined.
